(** * Naming conventions and the compound-name codec of [conventions.py]

    A shallow embedding of the logic-bearing part of the module: the
    module-level bindings that are assigned more than once ([kinds],
    [reserved_attributes], [subfolders]), the container operations Python
    applies to them (set membership, dict subscript), and the functions that
    build and take apart the derived parameter names
    ([get_chi2_name], [undo_chi2_name], [get_minuslogpior_name],
    [chi2_names], [minuslogprior_names]), together with [get_chi2_label],
    [cobaya_package] and the underscored duplicates of the second block.

    A Python [str] is a [string]; each [ascii] stands for one character of
    the [str].  A call either returns a value or raises an exception, which
    is recorded by the name of its class. *)

From Stdlib Require Import ZArith Ascii.
From stdpp Require Import gmap strings list fin_maps.

Open Scope string_scope.

(** ** Outcome of a call *)

Inductive outcome (A : Type) : Type :=
| Returns (a : A)
| Raises (cls : string).

Arguments Returns {A} a.
Arguments Raises {A} cls.

(** ** The operations Python supplies on [str] *)

Module PyStr.

(** [len(s)] *)
Definition len (s : string) : Z := Z.of_nat (String.length s).

(** The characters of [s] from position [n] on; nothing is left when [s]
    has fewer than [n] characters. *)
Fixpoint skip (n : nat) (s : string) : string :=
  match n, s with
  | O, _ => s
  | S _, EmptyString => EmptyString
  | S m, String _ rest => skip m rest
  end.

(** [s[start:]]: a negative [start] counts from the end, and every bound
    is clipped to the range [0 .. len(s)]; slicing never raises. *)
Definition slice_from (start : Z) (s : string) : string :=
  let n := len s in
  let lo := if (start <? 0)%Z then Z.max 0 (start + n) else Z.min start n in
  skip (Z.to_nat lo) s.

(** [s.startswith(pre)] *)
Fixpoint startswith (pre s : string) : bool :=
  match pre, s with
  | EmptyString, _ => true
  | String a pre', String b s' => bool_decide (a = b) && startswith pre' s'
  | String _ _, EmptyString => false
  end.

(** [sub in s] *)
Fixpoint contains (sub s : string) : bool :=
  startswith sub s ||
  match s with
  | EmptyString => false
  | String _ rest => contains sub rest
  end.

(** [s.replace(old, new)]: the occurrences of [old] are found left to right
    and do not overlap; [skipping] counts the characters of the occurrence
    just replaced that are still to be passed over.  For an empty [old],
    [new] is put before every character and at the end. *)
Fixpoint replace_from (old new : string) (skipping : nat) (s : string) : string :=
  match s with
  | EmptyString => EmptyString
  | String c rest =>
      match skipping with
      | S k => replace_from old new k rest
      | O =>
          if startswith old s
          then new +:+ replace_from old new (String.length old - 1) rest
          else String c (replace_from old new 0 rest)
      end
  end.

Fixpoint interleave (new s : string) : string :=
  match s with
  | EmptyString => new
  | String c rest => new +:+ String c (interleave new rest)
  end.

Definition replace (old new s : string) : string :=
  match old with
  | EmptyString => interleave new s
  | String _ _ => replace_from old new 0 s
  end.

(** [s.count(sub)]: the number of occurrences that [replace] would find. *)
Fixpoint count_from (sub : string) (skipping : nat) (s : string) : nat :=
  match s with
  | EmptyString => 0
  | String _ rest =>
      match skipping with
      | S k => count_from sub k rest
      | O =>
          if startswith sub s
          then S (count_from sub (String.length sub - 1) rest)
          else count_from sub 0 rest
      end
  end.

Definition count (sub s : string) : nat :=
  match sub with
  | EmptyString => S (String.length s)
  | String _ _ => count_from sub 0 s
  end.

(** The text before and after the last occurrence of [sep] in [s]. *)
Fixpoint rsplit_last (sep s : string) : option (string * string) :=
  match s with
  | EmptyString => None
  | String c rest =>
      match rsplit_last sep rest with
      | Some (head, tail) => Some (String c head, tail)
      | None =>
          if startswith sep s
          then Some (EmptyString, skip (String.length sep) s)
          else None
      end
  end.

(** [s.rpartition(sep)]: the split at the last occurrence of [sep]; two
    empty strings and [s] when there is none; [ValueError] for an empty
    separator. *)
Definition rpartition (sep s : string) : outcome (string * string * string) :=
  match sep with
  | EmptyString => Raises "ValueError"
  | String _ _ =>
      match rsplit_last sep s with
      | Some (head, tail) => Returns (head, sep, tail)
      | None => Returns (EmptyString, EmptyString, s)
      end
  end.

End PyStr.

(** ** Separator and sample field names (lines 36 and 41-46) *)

Definition derived_par_name_separator : string := "__".

Module OutPar.
Definition weight : string := "weight".
Definition minuslogpost : string := "minuslogpost".
Definition minuslogprior : string := "minuslogprior".
Definition chi2 : string := "chi2".
End OutPar.

(** ** The codec (lines 52-73) *)

(** [str(p)] of a [str] is the string itself. *)
Definition str (p : string) : string := p.

Definition get_chi2_name (p : string) : string :=
  (OutPar.chi2 +:+ derived_par_name_separator) +:+ str p.

Definition undo_chi2_name (p : string) : outcome string :=
  Returns (PyStr.slice_from (PyStr.len (OutPar.chi2 +:+ derived_par_name_separator)) p).

Definition get_minuslogpior_name (piname : string) : string :=
  (OutPar.minuslogprior +:+ derived_par_name_separator) +:+ piname.

(** The list comprehensions of [minuslogprior_names] and [chi2_names] walk
    the input front to back and append one result per element. *)
Fixpoint minuslogprior_names (prior : list string) : list string :=
  match prior with
  | [] => []
  | piname :: rest => get_minuslogpior_name piname :: minuslogprior_names rest
  end.

Fixpoint chi2_names (likes : list string) : list string :=
  match likes with
  | [] => []
  | likname :: rest => get_chi2_name likname :: chi2_names rest
  end.

(** Modelled from the spec: the helper that takes a [minuslogprior] name
    apart.  The module defines no such function; the specification
    describes it as the mirror of [undo_chi2_name], that is, the slice past
    [OutPar.minuslogprior + derived_par_name_separator]. *)
Definition undo_minuslogprior_name (p : string) : outcome string :=
  Returns (PyStr.slice_from
             (PyStr.len (OutPar.minuslogprior +:+ derived_par_name_separator)) p).

(** ** Module-level containers *)

(** The named tuple [ComponentKinds], with fields [sampler], [theory] and
    [likelihood]. *)
Record ComponentKinds : Type := mkComponentKinds {
  sampler : string;
  theory : string;
  likelihood : string
}.

Definition ComponentKinds_fields : list string := ["sampler"; "theory"; "likelihood"].

(** The items of a [ComponentKinds] instance, in field order. *)
Definition items_of (k : ComponentKinds) : list string :=
  [sampler k; theory k; likelihood k].

(** The values the module binds to the names that it assigns twice. *)
Inductive value : Type :=
| VTuple (items : list string)
| VKinds (k : ComponentKinds)
| VSet (xs : gset string)
| VDict (d : gmap string string).

(** [x in v], for a [str] [x]. *)
Definition py_in (x : string) (v : value) : bool :=
  match v with
  | VTuple items => bool_decide (x ∈ items)
  | VKinds k => bool_decide (x ∈ items_of k)
  | VSet xs => bool_decide (x ∈ xs)
  | VDict d => bool_decide (is_Some (d !! x))
  end.

(** [v[key]], for a [str] [key]: a dict looks the key up and raises
    [KeyError] when it is absent; tuples want an integer index and sets
    have no subscript. *)
Definition py_getitem (v : value) (key : string) : outcome string :=
  match v with
  | VDict d =>
      match d !! key with
      | Some x => Returns x
      | None => Raises "KeyError"
      end
  | VTuple _ | VKinds _ | VSet _ => Raises "TypeError"
  end.

(** *** First block of definitions (lines 23-28 and 109-111) *)

Definition kinds_l23 : list string := ["sampler"; "theory"; "likelihood"].

Definition reserved_attributes_l27 : gset string :=
  {[ "input_params"; "output_params"; "install_options";
     "bibtex_file"; "file_base_name" ]}.

Definition subfolders_l109 : gmap string string :=
  <["theory" := "theories"]>
    (<["sampler" := "samplers"]>
       (<["likelihood" := "likelihoods"]> ∅)).

(** *** Second block of definitions (lines 148-149, 174-179 and 226-228) *)

Definition _input_params : string := "input_params".
Definition _output_params : string := "output_params".

(** [kinds] is the [ComponentKinds] instance built from the unpacked
    [ComponentKinds._fields]: every field holds its own name. *)
Definition kinds_l175 : ComponentKinds :=
  mkComponentKinds "sampler" "theory" "likelihood".

Definition reserved_attributes_l179 : gset string :=
  {[ _input_params; _output_params; "install_options"; "bibtex_file" ]}.

Definition subfolders_l226 : gmap string string :=
  <[theory kinds_l175 := "theories"]>
    (<[sampler kinds_l175 := "samplers"]>
       (<[likelihood kinds_l175 := "likelihoods"]> ∅)).

(** *** The module namespace

    Importing the module runs its assignments top to bottom; an assignment
    to a name that is already bound replaces the binding. *)

Definition module_body : list (string * value) :=
  [ ("kinds", VTuple kinds_l23);
    ("reserved_attributes", VSet reserved_attributes_l27);
    ("subfolders", VDict subfolders_l109);
    ("kinds", VKinds kinds_l175);
    ("reserved_attributes", VSet reserved_attributes_l179);
    ("subfolders", VDict subfolders_l226) ].

Definition assign (ns : gmap string value) (b : string * value) : gmap string value :=
  <[b.1 := b.2]> ns.

Definition module_globals : gmap string value := foldl assign ∅ module_body.

(** Reading a global name after the import. *)
Definition global (x : string) : outcome value :=
  match module_globals !! x with
  | Some v => Returns v
  | None => Raises "NameError"
  end.

Definition outcome_bind {A B} (o : outcome A) (k : A → outcome B) : outcome B :=
  match o with
  | Returns a => k a
  | Raises cls => Raises cls
  end.

Definition kinds : outcome value := global "kinds".
Definition reserved_attributes : outcome value := global "reserved_attributes".
Definition subfolders : outcome value := global "subfolders".

(** [name in reserved_attributes] *)
Definition is_reserved_attribute (name : string) : outcome bool :=
  outcome_bind reserved_attributes (λ v, Returns (py_in name v)).

(** [subfolders[kind]] *)
Definition subfolder_for (kind : string) : outcome string :=
  outcome_bind subfolders (λ v, py_getitem v kind).

(** [kind in kinds] *)
Definition is_kind (kind : string) : outcome bool :=
  outcome_bind kinds (λ v, Returns (py_in kind v)).

(** ** The prefixes the codec puts in front of a name *)

Definition chi2_prefix : string := OutPar.chi2 +:+ derived_par_name_separator.

Definition minuslogprior_prefix : string :=
  OutPar.minuslogprior +:+ derived_par_name_separator.

(** ** The package name (line 12) and the label (lines 60-61)

    [cobaya_package] is the first component of [__name__.rpartition('.')];
    the module's dotted name is whatever the importer gave it. *)
Definition cobaya_package (__name__ : string) : outcome string :=
  outcome_bind (PyStr.rpartition "." __name__) (λ parts, Returns parts.1.1).

Definition get_chi2_label (p : string) : string :=
  ("\chi^2_\mathrm{" +:+ PyStr.replace "_" "\ " (str p)) +:+ "}".

(** The part of the label that depends on the name. *)
Definition label_body (p : string) : string := PyStr.replace "_" "\ " p.

(** ** The underscored duplicates (lines 135 and 188-198) *)

Definition _cobaya_package (__name__ : string) : outcome string :=
  outcome_bind (PyStr.rpartition "." __name__) (λ parts, Returns parts.1.1).

Definition _separator : string := "__".
Definition _chi2 : string := "chi2".

Definition _get_chi2_name (p : string) : string :=
  (_chi2 +:+ _separator) +:+ str p.

Definition _undo_chi2_name (p : string) : outcome string :=
  Returns (PyStr.slice_from (PyStr.len (_chi2 +:+ _separator)) p).

Definition _get_chi2_label (p : string) : string :=
  ("\chi^2_\mathrm{" +:+ PyStr.replace "_" "\ " (str p)) +:+ "}".

(** The names of the sample fields that are not derived from a likelihood
    or a prior (lines 42-46). *)
Definition OutPar_fields : list string :=
  [OutPar.weight; OutPar.minuslogpost; OutPar.minuslogprior; OutPar.chi2].

(** * Properties *)

(** ** Slicing *)

Section Slicing.

Implicit Types (s pre : string) (n : nat).

Lemma skip_app pre s : PyStr.skip (String.length pre) (pre +:+ s) = s.
Proof. induction pre as [|a pre IH]; [by destruct s | exact IH]. Qed.

Lemma skip_short n s : (String.length s ≤ n)%nat → PyStr.skip n s = "".
Proof.
  revert s. induction n as [|n IH]; intros [|a s] Hlen; simpl in *; try done; try lia.
  apply IH. lia.
Qed.

Lemma skip_length n s :
  String.length (PyStr.skip n s) = String.length s - n.
Proof.
  revert s. induction n as [|n IH]; intros [|a s]; simpl; auto with lia.
Qed.

(** What [skip] removes is a prefix of at most [n] characters. *)
Lemma skip_split n s :
  ∃ pre, s = pre +:+ PyStr.skip n s ∧ String.length pre = n `min` String.length s.
Proof.
  revert s. induction n as [|n IH]; intros s.
  - by exists "".
  - destruct s as [|a s]; [by exists ""|].
    destruct (IH s) as (pre & Heq & Hlen).
    exists (String a pre).
    split; [exact (f_equal (String a) Heq) | exact (f_equal S Hlen)].
Qed.

(** For a start that is a length, the slice is [skip]. *)
Lemma slice_from_len pre s :
  PyStr.slice_from (PyStr.len pre) s = PyStr.skip (String.length pre) s.
Proof.
  unfold PyStr.slice_from, PyStr.len.
  destruct (Z.ltb_spec (Z.of_nat (String.length pre)) 0) as [Hneg|_]; [lia|].
  destruct (Nat.le_gt_cases (String.length pre) (String.length s)) as [Hle|Hgt].
  - rewrite Z.min_l by lia. by rewrite Nat2Z.id.
  - rewrite Z.min_r by lia. rewrite Nat2Z.id.
    rewrite !skip_short; [done | lia | lia].
Qed.

Lemma slice_from_app pre s : PyStr.slice_from (PyStr.len pre) (pre +:+ s) = s.
Proof. by rewrite slice_from_len, skip_app. Qed.

End Slicing.

(** ** The chi2 codec *)

Lemma chi2_prefix_len : PyStr.len chi2_prefix = 6%Z.
Proof. reflexivity. Qed.

Lemma get_chi2_name_prefix p : get_chi2_name p = chi2_prefix +:+ p.
Proof. reflexivity. Qed.

Lemma undo_get_chi2_name s : undo_chi2_name (get_chi2_name s) = Returns s.
Proof.
  unfold undo_chi2_name. rewrite get_chi2_name_prefix.
  fold chi2_prefix. by rewrite slice_from_app.
Qed.

Lemma undo_chi2_name_skip p : undo_chi2_name p = Returns (PyStr.skip 6 p).
Proof.
  unfold undo_chi2_name. fold chi2_prefix. by rewrite slice_from_len.
Qed.

(** C1: for every non-empty string [s] in which the separator ["__"] does
    not occur, taking the composed chi2 name apart gives [s] back. *)
Theorem chi2_round_trip (s : string) :
  s ≠ "" →
  PyStr.contains derived_par_name_separator s = false →
  undo_chi2_name (get_chi2_name s) = Returns s.
Proof. intros _ _. apply undo_get_chi2_name. Qed.

Lemma chi2_round_trip_witness :
  "planck_2018" ≠ "" ∧
  PyStr.contains derived_par_name_separator "planck_2018" = false ∧
  undo_chi2_name (get_chi2_name "planck_2018") = Returns "planck_2018".
Proof.
  split; [discriminate|]. split; [reflexivity|].
  apply (chi2_round_trip "planck_2018"); [discriminate | reflexivity].
Defined.

(** C2, as stated, fails: ["foo__bar"] does not start with ["chi2__"], and
    [undo_chi2_name] returns the substring ["ar"] instead of raising
    [InvalidNameError]. *)
Lemma undo_chi2_name_no_InvalidNameError :
  ¬ (∀ p : string,
       PyStr.startswith chi2_prefix p = false →
       undo_chi2_name p = Raises "InvalidNameError").
Proof.
  intros H. specialize (H "foo__bar" eq_refl). discriminate H.
Qed.

(** C2, amended: for every string that does not start with ["chi2__"],
    [undo_chi2_name] raises nothing and returns the input without its
    first six characters (without all of them when there are fewer). *)
Theorem undo_chi2_name_unchecked (p : string) :
  PyStr.startswith chi2_prefix p = false →
  ∃ r pre : string,
    undo_chi2_name p = Returns r ∧
    p = pre +:+ r ∧
    String.length pre = 6 `min` String.length p.
Proof.
  intros _. destruct (skip_split 6 p) as (pre & Heq & Hlen).
  exists (PyStr.skip 6 p), pre. by rewrite undo_chi2_name_skip.
Qed.

Lemma undo_chi2_name_unchecked_witness :
  PyStr.startswith chi2_prefix "foo__bar" = false ∧
  ∃ r pre : string,
    undo_chi2_name "foo__bar" = Returns r ∧
    "foo__bar" = pre +:+ r ∧
    String.length pre = 6 `min` String.length "foo__bar".
Proof.
  split; [reflexivity|]. apply (undo_chi2_name_unchecked "foo__bar"). reflexivity.
Defined.

(** C3: [get_chi2_name p] is ["chi2"], then ["__"], then [p]; the name of
    ["planck_2018"] is ["chi2__planck_2018"], and taking that apart gives
    ["planck_2018"]. *)
Theorem get_chi2_name_concat :
  (∀ p : string, get_chi2_name p = ("chi2" +:+ "__") +:+ p) ∧
  get_chi2_name "planck_2018" = "chi2__planck_2018" ∧
  undo_chi2_name "chi2__planck_2018" = Returns "planck_2018".
Proof. by repeat split. Qed.

(** C9: on every string, [undo_chi2_name] returns, and what it returns is
    the input without its first [len("chi2__") = 6] characters (the empty
    string when the input is shorter than that); so the round trip through
    [get_chi2_name] holds for every string, the empty one and those that
    contain ["__"] included. *)
Theorem undo_chi2_name_total (p : string) :
  PyStr.len (OutPar.chi2 +:+ derived_par_name_separator) = 6%Z ∧
  (∃ r pre : string,
     undo_chi2_name p = Returns r ∧
     p = pre +:+ r ∧
     String.length pre = 6 `min` String.length p ∧
     String.length r = String.length p - 6 ∧
     (if decide (String.length p < 6)%nat then r = "" else String.length pre = 6)) ∧
  undo_chi2_name (get_chi2_name p) = Returns p ∧
  undo_chi2_name (get_chi2_name "") = Returns "" ∧
  undo_chi2_name (get_chi2_name "a__b") = Returns "a__b".
Proof.
  split; [reflexivity|]. split; [|by rewrite !undo_get_chi2_name].
  destruct (skip_split 6 p) as (pre & Heq & Hlen).
  exists (PyStr.skip 6 p), pre. rewrite undo_chi2_name_skip, skip_length.
  repeat split; try done.
  case_decide as Hlt; [apply skip_short; lia | lia].
Qed.

(** ** The minuslogprior codec *)

Lemma get_minuslogpior_name_prefix piname :
  get_minuslogpior_name piname = minuslogprior_prefix +:+ piname.
Proof. reflexivity. Qed.

(** C7: [get_minuslogpior_name p] is ["minuslogprior"], then ["__"], then
    [p]; the name of ["H0"] is ["minuslogprior__H0"]. *)
Theorem get_minuslogpior_name_concat :
  (∀ p : string, get_minuslogpior_name p = ("minuslogprior" +:+ "__") +:+ p) ∧
  get_minuslogpior_name "H0" = "minuslogprior__H0".
Proof. by split. Qed.

(** C8: for every non-empty string [s] in which the separator ["__"] does
    not occur, the helper that mirrors [undo_chi2_name] takes the composed
    minuslogprior name apart into [s] again. *)
Theorem minuslogprior_round_trip (s : string) :
  s ≠ "" →
  PyStr.contains derived_par_name_separator s = false →
  undo_minuslogprior_name (get_minuslogpior_name s) = Returns s.
Proof.
  intros _ _. unfold undo_minuslogprior_name.
  rewrite get_minuslogpior_name_prefix. fold minuslogprior_prefix.
  by rewrite slice_from_app.
Qed.

Lemma minuslogprior_round_trip_witness :
  "H0" ≠ "" ∧
  PyStr.contains derived_par_name_separator "H0" = false ∧
  undo_minuslogprior_name (get_minuslogpior_name "H0") = Returns "H0".
Proof.
  split; [discriminate|]. split; [reflexivity|].
  apply (minuslogprior_round_trip "H0"); [discriminate | reflexivity].
Defined.

(** ** The element-wise name builders *)

Lemma chi2_names_fmap likes : chi2_names likes = get_chi2_name <$> likes.
Proof. induction likes as [|likname rest IH]; [done | simpl; by rewrite IH]. Qed.

Lemma minuslogprior_names_fmap prior :
  minuslogprior_names prior = get_minuslogpior_name <$> prior.
Proof. induction prior as [|piname rest IH]; [done | simpl; by rewrite IH]. Qed.

(** C4: [chi2_names] and [minuslogprior_names] apply their compose
    function to each element, keeping order and length: the result has the
    length of the input and its [i]-th entry is the composed name of the
    [i]-th input; three names give the three composed names, and the empty
    sequence gives the empty sequence. *)
Theorem names_elementwise :
  (∀ likes : list string,
     chi2_names likes = map get_chi2_name likes ∧
     length (chi2_names likes) = length likes ∧
     ∀ i : nat, chi2_names likes !! i = get_chi2_name <$> likes !! i) ∧
  (∀ prior : list string,
     minuslogprior_names prior = map get_minuslogpior_name prior ∧
     length (minuslogprior_names prior) = length prior ∧
     ∀ i : nat,
       minuslogprior_names prior !! i = get_minuslogpior_name <$> prior !! i) ∧
  (∀ a b c : string,
     chi2_names [a; b; c] = [get_chi2_name a; get_chi2_name b; get_chi2_name c] ∧
     minuslogprior_names [a; b; c] =
       [get_minuslogpior_name a; get_minuslogpior_name b; get_minuslogpior_name c]) ∧
  chi2_names [] = [] ∧
  minuslogprior_names [] = [].
Proof.
  split; [|split; [|split; [|done]]].
  - intros likes. rewrite chi2_names_fmap.
    split; [done|]. split; [apply length_fmap|].
    intros i. apply list_lookup_fmap.
  - intros prior. rewrite minuslogprior_names_fmap.
    split; [done|]. split; [apply length_fmap|].
    intros i. apply list_lookup_fmap.
  - done.
Qed.

(** ** The module namespace and its containers *)

Lemma kinds_effective : kinds = Returns (VKinds kinds_l175).
Proof. vm_compute. reflexivity. Qed.

Lemma reserved_attributes_effective :
  reserved_attributes = Returns (VSet reserved_attributes_l179).
Proof. vm_compute. reflexivity. Qed.

Lemma subfolders_effective : subfolders = Returns (VDict subfolders_l226).
Proof. vm_compute. reflexivity. Qed.

Lemma kinds_items : items_of kinds_l175 = ComponentKinds_fields.
Proof. reflexivity. Qed.

Lemma is_kind_items kind :
  is_kind kind = Returns (bool_decide (kind ∈ ComponentKinds_fields)).
Proof. unfold is_kind. by rewrite kinds_effective. Qed.

Lemma subfolder_for_lookup kind :
  subfolder_for kind =
  match subfolders_l226 !! kind with
  | Some x => Returns x
  | None => Raises "KeyError"
  end.
Proof. unfold subfolder_for. by rewrite subfolders_effective. Qed.

Lemma subfolder_for_outside kind :
  kind ∉ ComponentKinds_fields → subfolder_for kind = Raises "KeyError".
Proof.
  intros Hout. rewrite subfolder_for_lookup.
  assert (kind ≠ "sampler" ∧ kind ≠ "theory" ∧ kind ≠ "likelihood")
    as (Hs & Ht & Hl).
  { unfold ComponentKinds_fields in Hout. set_solver. }
  unfold subfolders_l226. simpl.
  by rewrite !lookup_insert_ne, lookup_empty.
Qed.

Lemma subfolder_for_inside kind :
  kind ∈ ComponentKinds_fields →
  ∃ v : string, subfolder_for kind = Returns v ∧ v ≠ "".
Proof.
  unfold ComponentKinds_fields. rewrite !elem_of_cons, elem_of_nil.
  intros [-> | [-> | [-> | []]]].
  - by exists "samplers".
  - by exists "theories".
  - by exists "likelihoods".
Qed.

(** C5, as stated, fails: ["prior"] is not one of the kinds, and the lookup
    in [subfolders] raises [KeyError], not [UnknownKindError]. *)
Lemma subfolder_for_no_UnknownKindError :
  ¬ (∀ kind : string,
       (is_kind kind = Returns true →
        ∃ v : string, subfolder_for kind = Returns v ∧ v ≠ "") ∧
       (is_kind kind = Returns false →
        subfolder_for kind = Raises "UnknownKindError")).
Proof.
  intros H. destruct (H "prior") as [_ Hout].
  specialize (Hout eq_refl). discriminate Hout.
Qed.

(** C5, amended: the lookup [subfolders[kind]] returns a non-empty string
    for each of the three kinds (["likelihoods"] for [likelihood],
    ["samplers"] for [sampler], ["theories"] for [theory]) and raises
    [KeyError] for every other string. *)
Theorem subfolder_for_closed_set (kind : string) :
  (is_kind kind = Returns true →
   ∃ v : string, subfolder_for kind = Returns v ∧ v ≠ "") ∧
  (is_kind kind = Returns false → subfolder_for kind = Raises "KeyError") ∧
  subfolder_for "likelihood" = Returns "likelihoods" ∧
  subfolder_for "sampler" = Returns "samplers" ∧
  subfolder_for "theory" = Returns "theories".
Proof.
  rewrite is_kind_items. repeat split; try (vm_compute; reflexivity).
  - intros Hk. apply subfolder_for_inside.
    injection Hk as Hk. by apply bool_decide_eq_true in Hk.
  - intros Hk. apply subfolder_for_outside.
    injection Hk as Hk. by apply bool_decide_eq_false in Hk.
Qed.

Lemma subfolder_for_closed_set_witness :
  is_kind "theory" = Returns true ∧
  is_kind "prior" = Returns false ∧
  (∃ v : string, subfolder_for "theory" = Returns v ∧ v ≠ "") ∧
  subfolder_for "prior" = Raises "KeyError".
Proof.
  split; [vm_compute; reflexivity|]. split; [vm_compute; reflexivity|]. split.
  - apply (proj1 (subfolder_for_closed_set "theory")). vm_compute. reflexivity.
  - apply (proj1 (proj2 (subfolder_for_closed_set "prior"))). vm_compute. reflexivity.
Defined.

(** C6: the membership test on the reserved attributes answers true for
    ["input_params"] and false for ["arbitrary_unrelated_name"]. *)
Theorem is_reserved_attribute_examples :
  is_reserved_attribute "input_params" = Returns true ∧
  is_reserved_attribute "arbitrary_unrelated_name" = Returns false.
Proof. split; vm_compute; reflexivity. Qed.

(** C10: after the import, [reserved_attributes] is bound to the second set
    literal, so it holds exactly ["input_params"], ["output_params"],
    ["install_options"] and ["bibtex_file"]; ["file_base_name"], which only
    the first literal holds, is not a member. *)
Theorem reserved_attributes_shadowed :
  reserved_attributes =
    Returns (VSet {[ "input_params"; "output_params";
                     "install_options"; "bibtex_file" ]}) ∧
  (∀ name : string,
     is_reserved_attribute name =
     Returns (bool_decide (name ∈ [ "input_params"; "output_params";
                                    "install_options"; "bibtex_file" ]))) ∧
  "file_base_name" ∈ reserved_attributes_l27 ∧
  is_reserved_attribute "file_base_name" = Returns false.
Proof.
  split; [exact reserved_attributes_effective|].
  split; [|split; [|vm_compute; reflexivity]].
  - intros name. unfold is_reserved_attribute.
    rewrite reserved_attributes_effective. simpl. f_equal.
    apply bool_decide_ext. unfold reserved_attributes_l179.
    rewrite !elem_of_cons, elem_of_nil, !elem_of_union, !elem_of_singleton.
    unfold _input_params, _output_params. tauto.
  - unfold reserved_attributes_l27.
    rewrite !elem_of_union, !elem_of_singleton. tauto.
Qed.

(** * Further properties of the codec *)

Section Strings.

Implicit Types (s t pre : string) (c : Ascii.ascii).

Lemma append_length s t :
  String.length (s +:+ t) = String.length s + String.length t.
Proof. induction s as [|c s IH]; simpl; [done | by rewrite IH]. Qed.

Lemma append_cancel_l pre s t : pre +:+ s = pre +:+ t → s = t.
Proof. induction pre as [|c pre IH]; simpl; [done|]. intros [= H]. auto. Qed.

Lemma append_cancel_last c s t : s +:+ String c "" = t +:+ String c "" → s = t.
Proof.
  revert t. induction s as [|a s IH]; intros [|b t]; simpl; try done.
  - intros [= _ H]. by destruct t.
  - intros [= _ H]. by destruct s.
  - intros [= -> H]. f_equal. by apply IH.
Qed.

Lemma startswith_refl_app pre s : PyStr.startswith pre (pre +:+ s) = true.
Proof.
  induction pre as [|c pre IH]; simpl; [done|].
  by rewrite bool_decide_eq_true_2.
Qed.

Lemma startswith_split pre s :
  PyStr.startswith pre s = true → s = pre +:+ PyStr.skip (String.length pre) s.
Proof.
  revert s. induction pre as [|c pre IH]; intros s; simpl; [done|].
  destruct s as [|a s]; [done|].
  intros [Hc Hs]%andb_true_iff. apply bool_decide_eq_true in Hc as ->.
  exact (f_equal (String a) (IH s Hs)).
Qed.

End Strings.

Lemma get_chi2_name_inj' p q : get_chi2_name p = get_chi2_name q → p = q.
Proof. rewrite !get_chi2_name_prefix. apply append_cancel_l. Qed.

Lemma get_minuslogpior_name_inj' p q :
  get_minuslogpior_name p = get_minuslogpior_name q → p = q.
Proof. rewrite !get_minuslogpior_name_prefix. apply append_cancel_l. Qed.

#[local] Instance get_chi2_name_Inj : Inj (=) (=) get_chi2_name.
Proof. intros p q. apply get_chi2_name_inj'. Qed.

#[local] Instance get_minuslogpior_name_Inj : Inj (=) (=) get_minuslogpior_name.
Proof. intros p q. apply get_minuslogpior_name_inj'. Qed.

(** X1: two likelihoods get the same chi2 name only when they have the same
    name, and two priors the same minuslogprior name only when they have
    the same name. *)
Theorem compose_injective (p q : string) :
  (get_chi2_name p = get_chi2_name q → p = q) ∧
  (get_minuslogpior_name p = get_minuslogpior_name q → p = q).
Proof. split; [apply get_chi2_name_inj' | apply get_minuslogpior_name_inj']. Qed.

Lemma compose_injective_witness :
  get_chi2_name "lowl" = get_chi2_name "lowl" ∧
  get_minuslogpior_name "H0" = get_minuslogpior_name "H0" ∧
  "lowl" = "lowl" ∧ "H0" = "H0".
Proof.
  split; [reflexivity|]. split; [reflexivity|]. split.
  - apply (proj1 (compose_injective "lowl" "lowl")). reflexivity.
  - apply (proj2 (compose_injective "H0" "H0")). reflexivity.
Defined.

(** X2: [undo_chi2_name] inverts [get_chi2_name] from the other side exactly
    on the strings that start with ["chi2__"]: composing the name again
    from what [undo_chi2_name] returned gives the input if and only if the
    input has the prefix. *)
Theorem get_undo_chi2_name (p r : string) :
  undo_chi2_name p = Returns r →
  (get_chi2_name r = p ↔ PyStr.startswith chi2_prefix p = true).
Proof.
  rewrite undo_chi2_name_skip. intros [= <-].
  rewrite get_chi2_name_prefix. split.
  - intros <-. apply startswith_refl_app.
  - intros Hpre. symmetry. by apply (startswith_split chi2_prefix).
Qed.

Lemma get_undo_chi2_name_witness :
  undo_chi2_name "chi2__lowl" = Returns "lowl" ∧
  (get_chi2_name "lowl" = "chi2__lowl" ↔
   PyStr.startswith chi2_prefix "chi2__lowl" = true).
Proof.
  split; [reflexivity|]. apply (get_undo_chi2_name "chi2__lowl" "lowl"). reflexivity.
Defined.

(** X3: a chi2 name is never a minuslogprior name, and neither kind of
    derived name is one of the plain field names [weight], [minuslogpost],
    [minuslogprior] and [chi2]. *)
Theorem derived_names_disjoint (a b : string) :
  (get_chi2_name a ≠ get_minuslogpior_name b) ∧
  (get_chi2_name a ∉ OutPar_fields) ∧
  (get_minuslogpior_name b ∉ OutPar_fields).
Proof.
  unfold OutPar_fields. rewrite !not_elem_of_cons.
  repeat split; try apply not_elem_of_nil; discriminate.
Qed.

(** X4: a composed name starts with its prefix, contains the separator, and
    is longer than the name it was made from by the length of the prefix:
    6 characters for chi2, 15 for minuslogprior. *)
Theorem composed_name_shape (p : string) :
  PyStr.startswith chi2_prefix (get_chi2_name p) = true ∧
  PyStr.contains derived_par_name_separator (get_chi2_name p) = true ∧
  String.length (get_chi2_name p) = 6 + String.length p ∧
  PyStr.startswith minuslogprior_prefix (get_minuslogpior_name p) = true ∧
  PyStr.contains derived_par_name_separator (get_minuslogpior_name p) = true ∧
  String.length (get_minuslogpior_name p) = 15 + String.length p.
Proof. repeat split; reflexivity. Qed.

(** X5: [undo_chi2_name] does not take a minuslogprior name apart: applied
    to the minuslogprior name of [s] it returns ["ogprior__"] followed by
    [s], which is never [s]. *)
Theorem undo_chi2_name_of_minuslogprior (s : string) :
  undo_chi2_name (get_minuslogpior_name s) = Returns ("ogprior__" +:+ s) ∧
  (undo_chi2_name (get_minuslogpior_name s) ≠ Returns s).
Proof.
  rewrite undo_chi2_name_skip. split; [reflexivity|].
  intros [= H]. apply (f_equal String.length) in H.
  change (String.length ("ogprior__" +:+ s) = String.length s) in H.
  rewrite append_length in H. simpl in H. lia.
Qed.

(** ** Lists of names *)

(** X6: the name builders distribute over the concatenation of two lists. *)
Theorem names_app (l1 l2 : list string) :
  chi2_names (l1 ++ l2)%list = (chi2_names l1 ++ chi2_names l2)%list ∧
  minuslogprior_names (l1 ++ l2)%list =
    (minuslogprior_names l1 ++ minuslogprior_names l2)%list.
Proof.
  rewrite !chi2_names_fmap, !minuslogprior_names_fmap.
  by rewrite !fmap_app.
Qed.

(** X7: if no likelihood is listed twice, no chi2 name is produced twice;
    the same for priors and their minuslogprior names. *)
Theorem names_NoDup (l : list string) :
  NoDup l → NoDup (chi2_names l) ∧ NoDup (minuslogprior_names l).
Proof.
  intros Hl. rewrite chi2_names_fmap, minuslogprior_names_fmap.
  split; by apply (NoDup_fmap_2 _).
Qed.

Lemma names_NoDup_witness :
  NoDup ["lowl"; "highl"] ∧
  NoDup (chi2_names ["lowl"; "highl"]) ∧
  NoDup (minuslogprior_names ["lowl"; "highl"]).
Proof.
  assert (NoDup ["lowl"; "highl"]) as Hl.
  { apply NoDup_cons. split; [|apply NoDup_singleton].
    rewrite list_elem_of_singleton. discriminate. }
  split; [exact Hl|]. exact (names_NoDup ["lowl"; "highl"] Hl).
Defined.

(** X8: the entry at any position of [chi2_names likes] is taken apart by
    [undo_chi2_name] into the entry of [likes] at the same position. *)
Theorem chi2_names_undo (likes : list string) (i : nat) (name : string) :
  chi2_names likes !! i = Some name →
  ∃ likname : string,
    likes !! i = Some likname ∧ undo_chi2_name name = Returns likname.
Proof.
  rewrite chi2_names_fmap, list_lookup_fmap.
  destruct (likes !! i) as [likname|]; simpl; [|done].
  intros [= <-]. exists likname. split; [done | apply undo_get_chi2_name].
Qed.

Lemma chi2_names_undo_witness :
  chi2_names ["lowl"; "highl"] !! 1 = Some "chi2__highl" ∧
  ∃ likname : string,
    ["lowl"; "highl"] !! 1 = Some likname ∧
    undo_chi2_name "chi2__highl" = Returns likname.
Proof.
  split; [reflexivity|].
  apply (chi2_names_undo ["lowl"; "highl"] 1 "chi2__highl"). reflexivity.
Defined.

(** X9: whatever the likelihoods and priors are called, no name occurs both
    in [chi2_names likes] and in [minuslogprior_names prior], and every
    name in [chi2_names likes] is the chi2 name of a member of [likes]. *)
Theorem names_columns_disjoint (likes prior : list string) (x : string) :
  x ∈ chi2_names likes →
  (x ∉ minuslogprior_names prior) ∧
  ∃ likname : string, likname ∈ likes ∧ x = get_chi2_name likname.
Proof.
  rewrite chi2_names_fmap, minuslogprior_names_fmap.
  intros (likname & -> & Hin)%list_elem_of_fmap. split; [|by exists likname].
  intros (piname & Heq & _)%list_elem_of_fmap. discriminate Heq.
Qed.

Lemma names_columns_disjoint_witness :
  "chi2__lowl" ∈ chi2_names ["lowl"] ∧
  ("chi2__lowl" ∉ minuslogprior_names ["lowl"]) ∧
  ∃ likname : string, likname ∈ ["lowl"] ∧ "chi2__lowl" = get_chi2_name likname.
Proof.
  assert ("chi2__lowl" ∈ chi2_names ["lowl"]) as Hin.
  { apply list_elem_of_singleton. reflexivity. }
  split; [exact Hin|].
  exact (names_columns_disjoint ["lowl"] ["lowl"] "chi2__lowl" Hin).
Defined.

(** ** The label *)

Section OneCharacter.

Variable c : Ascii.ascii.
Implicit Types (s new : string) (a : Ascii.ascii).

Lemma contains_char_cons a s :
  PyStr.contains (String c "") (String a s) =
  bool_decide (c = a) || PyStr.contains (String c "") s.
Proof. simpl. by rewrite andb_true_r. Qed.

Lemma replace_char_cons new a s :
  PyStr.replace (String c "") new (String a s) =
  if bool_decide (c = a)
  then new +:+ PyStr.replace (String c "") new s
  else String a (PyStr.replace (String c "") new s).
Proof. unfold PyStr.replace. simpl. by rewrite andb_true_r. Qed.

Lemma count_char_cons a s :
  PyStr.count (String c "") (String a s) =
  if bool_decide (c = a)
  then S (PyStr.count (String c "") s)
  else PyStr.count (String c "") s.
Proof. unfold PyStr.count. simpl. by rewrite andb_true_r. Qed.

(** Where the character does not occur there is nothing to replace. *)
Lemma replace_char_absent new s :
  PyStr.contains (String c "") s = false → PyStr.replace (String c "") new s = s.
Proof.
  induction s as [|a s IH]; [done|].
  rewrite contains_char_cons, replace_char_cons.
  intros [Ha Hs]%orb_false_iff. rewrite Ha. f_equal. by apply IH.
Qed.

Lemma replace_char_length new s :
  String.length (PyStr.replace (String c "") new s) + PyStr.count (String c "") s =
  String.length s + PyStr.count (String c "") s * String.length new.
Proof.
  induction s as [|a s IH]; [done|].
  rewrite replace_char_cons, count_char_cons.
  destruct (bool_decide (c = a)); [rewrite append_length|];
    cbn [String.length]; lia.
Qed.

End OneCharacter.

Lemma get_chi2_label_body p :
  get_chi2_label p = "\chi^2_\mathrm{" +:+ (label_body p +:+ "}").
Proof. reflexivity. Qed.

Lemma label_body_cons a p :
  label_body (String a p) =
  if bool_decide ("_"%char = a)
  then String "092"%char (String " "%char (label_body p))
  else String a (label_body p).
Proof. unfold label_body. rewrite replace_char_cons. by case_bool_decide. Qed.

Lemma label_body_no_underscore p : PyStr.contains "_" (label_body p) = false.
Proof.
  induction p as [|a p IH]; [done|].
  rewrite label_body_cons. case_bool_decide as Ha.
  - by rewrite !contains_char_cons, IH.
  - rewrite contains_char_cons, IH. by rewrite bool_decide_eq_false_2.
Qed.

Lemma label_body_inj p q :
  PyStr.contains (String "092"%char "") p = false →
  PyStr.contains (String "092"%char "") q = false →
  label_body p = label_body q → p = q.
Proof.
  revert q. induction p as [|a p IH]; intros [|b q].
  - done.
  - intros _ _. rewrite label_body_cons. by case_bool_decide.
  - intros _ _. rewrite label_body_cons. by case_bool_decide.
  - rewrite !contains_char_cons, !label_body_cons.
    intros [Ha Hp]%orb_false_iff [Hb Hq]%orb_false_iff.
    apply bool_decide_eq_false in Ha, Hb.
    repeat case_bool_decide; intros Heq; simplify_eq; try done.
    + f_equal. by apply IH.
    + f_equal. by apply IH.
Qed.

(** X10: in a label, the text between the fixed opening and the closing
    brace has no underscore left, and it is longer than the name by one
    character for every underscore of the name. *)
Theorem get_chi2_label_shape (p : string) :
  ∃ body : string,
    get_chi2_label p = ("\chi^2_\mathrm{" +:+ body) +:+ "}" ∧
    PyStr.contains "_" body = false ∧
    String.length body = String.length p + PyStr.count "_" p ∧
    String.length (get_chi2_label p) = 16 + String.length p + PyStr.count "_" p.
Proof.
  exists (label_body p).
  assert (String.length (label_body p) = String.length p + PyStr.count "_" p) as Hlen.
  { pose proof (replace_char_length "_"%char "\ " p) as H.
    unfold label_body.
    change (String.length "\ ") with 2 in H. lia. }
  split; [reflexivity|]. split; [apply label_body_no_underscore|].
  split; [exact Hlen|].
  rewrite get_chi2_label_body, !append_length, Hlen. cbn [String.length]. lia.
Qed.

(** X11: the label does not tell an underscore from a backslash followed by
    a space: a name and the name with its underscores so replaced have the
    same label, and the names ["a_b"] and ["a\ b"] are an instance. *)
Theorem get_chi2_label_collision (p : string) :
  get_chi2_label (PyStr.replace "_" "\ " p) = get_chi2_label p ∧
  "a_b" ≠ "a\ b" ∧
  get_chi2_label "a_b" = get_chi2_label "a\ b".
Proof.
  split; [|by split].
  rewrite !get_chi2_label_body. fold (label_body p). do 2 f_equal.
  apply replace_char_absent, label_body_no_underscore.
Qed.

(** X12: a name without underscores is put into the label unchanged. *)
Theorem get_chi2_label_plain (p : string) :
  PyStr.contains "_" p = false →
  get_chi2_label p = ("\chi^2_\mathrm{" +:+ p) +:+ "}".
Proof.
  intros Hp. unfold get_chi2_label, str. by rewrite replace_char_absent.
Qed.

Lemma get_chi2_label_plain_witness :
  PyStr.contains "_" "lowl" = false ∧
  get_chi2_label "lowl" = ("\chi^2_\mathrm{" +:+ "lowl") +:+ "}".
Proof.
  split; [reflexivity|]. apply (get_chi2_label_plain "lowl"). reflexivity.
Defined.

(** X13: two names that contain no backslash have the same label only when
    they are the same name. *)
Theorem get_chi2_label_injective (p q : string) :
  PyStr.contains (String "092"%char "") p = false →
  PyStr.contains (String "092"%char "") q = false →
  get_chi2_label p = get_chi2_label q →
  p = q.
Proof.
  intros Hp Hq. rewrite !get_chi2_label_body.
  intros H%append_cancel_l%append_cancel_last. by apply label_body_inj.
Qed.

Lemma get_chi2_label_injective_witness :
  PyStr.contains (String "092"%char "") "planck_2018" = false ∧
  get_chi2_label "planck_2018" = get_chi2_label "planck_2018" ∧
  "planck_2018" = "planck_2018".
Proof.
  split; [reflexivity|]. split; [reflexivity|].
  apply (get_chi2_label_injective "planck_2018" "planck_2018"); reflexivity.
Defined.

(** X14: the underscored lambdas compute what the public functions compute,
    on every string. *)
Theorem underscored_agree (p : string) :
  _get_chi2_name p = get_chi2_name p ∧
  _undo_chi2_name p = undo_chi2_name p ∧
  _get_chi2_label p = get_chi2_label p ∧
  _undo_chi2_name (get_chi2_name p) = Returns p ∧
  undo_chi2_name (_get_chi2_name p) = Returns p.
Proof.
  repeat split; try reflexivity.
  - change (undo_chi2_name (get_chi2_name p) = Returns p). apply undo_get_chi2_name.
  - change (undo_chi2_name (get_chi2_name p) = Returns p). apply undo_get_chi2_name.
Qed.

(** ** The package name *)

Section LastOccurrence.

Variable c : Ascii.ascii.
Implicit Types (s head tail : string).

Lemma rsplit_last_absent s :
  PyStr.contains (String c "") s = false → PyStr.rsplit_last (String c "") s = None.
Proof.
  induction s as [|a s IH]; [done|].
  rewrite contains_char_cons. intros [Ha Hs]%orb_false_iff.
  simpl. by rewrite IH, Ha.
Qed.

Lemma rsplit_last_found s :
  PyStr.contains (String c "") s = true →
  ∃ head tail,
    PyStr.rsplit_last (String c "") s = Some (head, tail) ∧
    s = head +:+ String c tail ∧
    PyStr.contains (String c "") tail = false.
Proof.
  induction s as [|a s IH]; [done|].
  rewrite contains_char_cons. intros Hin.
  destruct (PyStr.contains (String c "") s) eqn:Hs.
  - destruct IH as (head & tail & Hsplit & -> & Htail); [done|].
    exists (String a head), tail. simpl in *. by rewrite Hsplit.
  - rewrite orb_false_r in Hin. apply bool_decide_eq_true in Hin as <-.
    exists "", s. simpl. rewrite rsplit_last_absent by done.
    by rewrite bool_decide_eq_true_2.
Qed.

Lemma rsplit_last_app head tail :
  PyStr.contains (String c "") tail = false →
  PyStr.rsplit_last (String c "") (head +:+ String c tail) = Some (head, tail).
Proof.
  intros Htail. induction head as [|a head IH]; simpl.
  - rewrite rsplit_last_absent by done. by rewrite bool_decide_eq_true_2.
  - simpl in IH. by rewrite IH.
Qed.

End LastOccurrence.

(** X15: when the module's dotted name is a package path, a dot and a last
    component without dots, [cobaya_package] is the package path, however
    many dots that path has; [_cobaya_package] is the same. *)
Theorem cobaya_package_dotted (pkg modname : string) :
  PyStr.contains "." modname = false →
  cobaya_package (pkg +:+ "." +:+ modname) = Returns pkg ∧
  _cobaya_package (pkg +:+ "." +:+ modname) = Returns pkg.
Proof.
  intros Hmod. unfold cobaya_package, _cobaya_package, PyStr.rpartition.
  change ("." +:+ modname) with (String "."%char modname).
  by rewrite rsplit_last_app.
Qed.

Lemma cobaya_package_dotted_witness :
  PyStr.contains "." "conventions" = false ∧
  cobaya_package ("soliket.cobaya" +:+ "." +:+ "conventions") =
    Returns "soliket.cobaya" ∧
  _cobaya_package ("soliket.cobaya" +:+ "." +:+ "conventions") =
    Returns "soliket.cobaya".
Proof.
  split; [reflexivity|].
  apply (cobaya_package_dotted "soliket.cobaya" "conventions"). reflexivity.
Defined.

(** X16: [cobaya_package] never raises.  For a module name without a dot it
    is the empty string; otherwise it is what precedes the last dot, so the
    module name is the package, a dot, and a rest without dots. *)
Theorem cobaya_package_total (name : string) :
  ∃ pkg : string,
    cobaya_package name = Returns pkg ∧
    if PyStr.contains "." name
    then ∃ rest : string,
           name = pkg +:+ "." +:+ rest ∧ PyStr.contains "." rest = false
    else pkg = "".
Proof.
  unfold cobaya_package, PyStr.rpartition.
  destruct (PyStr.contains "." name) eqn:Hdot.
  - destruct (rsplit_last_found "."%char name Hdot)
      as (head & tail & Hsplit & Hname & Htail).
    exists head. rewrite Hsplit. split; [done|]. by exists tail.
  - exists "". by rewrite rsplit_last_absent.
Qed.

(** ** Kinds and subfolders *)

(** X17: no two kinds share a subfolder: when the lookups of two kinds
    return the same folder name, the kinds are the same. *)
Theorem subfolder_for_injective (k1 k2 folder : string) :
  subfolder_for k1 = Returns folder →
  subfolder_for k2 = Returns folder →
  k1 = k2.
Proof.
  assert (∀ k v, subfolder_for k = Returns v →
            (k = "sampler" ∧ v = "samplers") ∨
            (k = "theory" ∧ v = "theories") ∨
            (k = "likelihood" ∧ v = "likelihoods")) as Hcases.
  { intros k v Hk.
    destruct (decide (k ∈ ComponentKinds_fields)) as [Hin|Hout].
    - unfold ComponentKinds_fields in Hin.
      rewrite !elem_of_cons, elem_of_nil in Hin.
      destruct Hin as [-> | [-> | [-> | []]]];
        vm_compute in Hk; injection Hk as <-; auto.
    - rewrite subfolder_for_outside in Hk by done. discriminate Hk. }
  intros H1%Hcases H2%Hcases.
  destruct H1 as [[-> ->] | [[-> ->] | [-> ->]]];
    destruct H2 as [[-> H] | [[-> H] | [-> H]]]; done.
Qed.

Lemma subfolder_for_injective_witness :
  subfolder_for "theory" = Returns "theories" ∧ "theory" = "theory".
Proof.
  split; [vm_compute; reflexivity|].
  apply (subfolder_for_injective "theory" "theory" "theories");
    vm_compute; reflexivity.
Defined.

(** X18: what the second block of definitions changes.  Assigning [kinds]
    and [subfolders] again changes no membership test and no lookup; of the
    reserved attributes of the first block, only ["file_base_name"] is no
    longer reserved, and nothing is added. *)
Theorem second_block_effect (x : string) :
  is_kind x = Returns (py_in x (VTuple kinds_l23)) ∧
  subfolder_for x = py_getitem (VDict subfolders_l109) x ∧
  is_reserved_attribute x =
    Returns (py_in x (VSet reserved_attributes_l27) &&
             negb (bool_decide (x = "file_base_name"))).
Proof.
  split; [by rewrite is_kind_items|]. split.
  - by rewrite subfolder_for_lookup.
  - unfold is_reserved_attribute. rewrite reserved_attributes_effective.
    simpl. f_equal. apply eq_true_iff_eq.
    rewrite andb_true_iff, negb_true_iff, !bool_decide_eq_true, bool_decide_eq_false.
    unfold reserved_attributes_l179, reserved_attributes_l27,
      _input_params, _output_params.
    rewrite !elem_of_union, !elem_of_singleton.
    split.
    + intros H. split; [tauto|]. intros ->.
      destruct H as [[[H|H]|H]|H]; discriminate H.
    + tauto.
Qed.

(** ** The slice of [undo_chi2_name] once more *)

(** X19: [undo_chi2_name] strips any six characters, not only ["chi2__"]:
    applied to a six-character string followed by [s] it returns [s]. *)
Theorem undo_chi2_name_any_prefix (pre s : string) :
  String.length pre = 6 →
  undo_chi2_name (pre +:+ s) = Returns s.
Proof.
  intros Hlen. rewrite undo_chi2_name_skip, <- Hlen. by rewrite skip_app.
Qed.

Lemma undo_chi2_name_any_prefix_witness :
  String.length "prior_" = 6 ∧
  undo_chi2_name ("prior_" +:+ "H0") = Returns "H0".
Proof.
  split; [reflexivity|]. apply (undo_chi2_name_any_prefix "prior_" "H0"). reflexivity.
Defined.
